(** * Rate resolution and conversion of the LLD currency converter

    A shallow embedding of the core of [src/main.cpp]: the
    [ExchangeRateProvider] interface, its [StaticRateProvider]
    implementation (base-relative rate table and string-keyed override
    table) and [CurrencyConverter::convert].

    C++ [double] is modelled by Rocq's primitive IEEE-754 binary64 floats
    ([PrimFloat]), so [/], [*], [<=] and [<] are the machine operations.
    [std::map<std::string, double>] is a [gmap string float]; every
    exception of the core is a [std::runtime_error], modelled by
    [runtime_error] with its message. *)

From Stdlib Require Import Floats.
From stdpp Require Import base gmap strings list.

Set Warnings "-inexact-float".

(** ** Exceptions and results *)

(** [std::runtime_error(what)]: the only exception type the core throws. *)
Inductive exn :=
| runtime_error (what : string).

(** The outcome of a call: a returned value or a thrown exception. *)
Inductive result (A : Type) :=
| Ok (a : A)
| Throw (e : exn).
Arguments Ok {A} a.
Arguments Throw {A} e.

Definition is_throw {A} (r : result A) : bool :=
  match r with Ok _ => false | Throw _ => true end.

(** The three messages the core raises (lines 91, 103 and 120). *)
Definition UnsupportedCurrencyError : exn := runtime_error "Unsupported currency code".
Definition InvalidRateError : exn := runtime_error "Rate must be positive".
Definition NegativeAmountError : exn := runtime_error "Amount cannot be negative".

(** ** [StaticRateProvider] *)

Module StaticRateProvider.

(** The three data members of the class. *)
Record t := mk {
  baseCurrencyCode : string;          (* all rates are stored relative to this base *)
  baseRates : gmap string float;      (* code -> rate vs base *)
  customRates : gmap string float     (* "FROM->TO" -> rate *)
}.

(** [static std::string makeKey(from, to) { return from + "->" + to; }] *)
Definition makeKey (from to : string) : string :=
  (from ++ "->" ++ to)%string.

(** The hard-coded demo rates the constructor writes after the base entry,
    in the order of lines 57-62. *)
Definition seedRates : list (string * float) :=
  [("EUR", 0.92%float); ("INR", 83.10%float); ("GBP", 0.79%float);
   ("JPY", 141.50%float); ("AUD", 1.47%float); ("CAD", 1.34%float)].

(** [explicit StaticRateProvider(std::string baseCode = "USD")]:
    [baseRates[baseCurrencyCode] = 1.0] and then the six seed writes, each
    an insert-or-overwrite of [std::map::operator[]]. *)
Definition create (baseCode : string) : t :=
  mk baseCode
     (foldl (fun m cr => <[cr.1 := cr.2]> m) (<[baseCode := 1.0%float]> ∅) seedRates)
     ∅.

(** [void registerCurrency(code, rateVsBase) { baseRates[code] = rateVsBase; }] *)
Definition registerCurrency (s : t) (code : string) (rateVsBase : float) : t :=
  mk (baseCurrencyCode s) (<[code := rateVsBase]> (baseRates s)) (customRates s).

(** [getSupportedCodes]: the keys of [baseRates] (a [std::map] iterates them
    in sorted order; the model lists them in the map's own order). *)
Definition getSupportedCodes (s : t) : list string :=
  (map_to_list (baseRates s)).*1.

(** [double getRate(from, to) const] (lines 78-99). *)
Definition getRate (s : t) (from to : string) : result float :=
  if String.eqb from to then Ok 1.0%float
  else
    match customRates s !! makeKey from to with
    | Some rate => Ok rate
    | None =>
        match baseRates s !! from, baseRates s !! to with
        | Some rateFrom, Some rateTo => Ok (rateTo / rateFrom)%float
        | _, _ => Throw UnsupportedCurrencyError
        end
    end.

(** [void setCustomRate(from, to, rate)] (lines 101-106): the object after
    the call is returned with the outcome; a throw leaves it as it was. *)
Definition setCustomRate (s : t) (from to : string) (rate : float) : result unit * t :=
  if (rate <=? 0)%float then (Throw InvalidRateError, s)
  else (Ok tt, mk (baseCurrencyCode s) (baseRates s)
                  (<[makeKey from to := rate]> (customRates s))).

(** The public calls on a provider, for sequences of calls from the
    initial object. *)
Inductive call :=
| RegisterCurrency (code : string) (rateVsBase : float)
| SetCustomRate (from to : string) (rate : float)
| GetRate (from to : string)
| GetSupportedCodes.

(** The object after one call (whether the call returns or throws). *)
Definition exec (s : t) (c : call) : t :=
  match c with
  | RegisterCurrency code r => registerCurrency s code r
  | SetCustomRate from to r => (setCustomRate s from to r).2
  | GetRate _ _ | GetSupportedCodes => s
  end.

(** The object after constructing with [baseCode] and making [calls]. *)
Definition run (baseCode : string) (calls : list call) : t :=
  foldl exec (create baseCode) calls.

End StaticRateProvider.

(** ** The [ExchangeRateProvider] interface *)

(** The abstract class: [getRate] is pure virtual and const;
    [setCustomRate] may change the provider. *)
Class ExchangeRateProvider (P : Type) := {
  getRate : P -> string -> string -> result float;
  setCustomRate : P -> string -> string -> float -> result unit * P
}.

(** The base class's default [setCustomRate] (lines 37-40). *)
Definition default_setCustomRate {P : Type} (p : P) (from to : string) (rate : float)
  : result unit * P :=
  (Throw (runtime_error "Custom rates not supported by this provider"), p).

#[export] Instance StaticRateProvider_ExchangeRateProvider
  : ExchangeRateProvider StaticRateProvider.t := {|
  getRate := StaticRateProvider.getRate;
  setCustomRate := StaticRateProvider.setCustomRate
|}.

(** ** [CurrencyConverter] *)

(** [double convert(from, to, amount) const] (lines 118-124), over the
    provider the converter refers to, in its current state. *)
Definition convert {P : Type} `{ExchangeRateProvider P} (rateProvider : P)
    (from to : string) (amount : float) : result float :=
  if (amount <? 0)%float then Throw NegativeAmountError
  else
    match getRate rateProvider from to with
    | Ok rate => Ok (amount * rate)%float
    | Throw e => Throw e
    end.

(** ** Examples *)

Example getRate_usd_eur :
  StaticRateProvider.getRate (StaticRateProvider.create "USD") "USD" "EUR" = Ok 0.92%float.
Proof. vm_compute. reflexivity. Qed.

Example convert_usd_eur :
  convert (StaticRateProvider.create "USD") "USD" "EUR" 100%float = Ok (100 * 0.92)%float.
Proof. vm_compute. reflexivity. Qed.

Example getRate_unknown :
  StaticRateProvider.getRate (StaticRateProvider.create "USD") "ZZZ" "USD"
  = Throw UnsupportedCurrencyError.
Proof. vm_compute. reflexivity. Qed.

(** ** Facts about binary64 comparisons and products *)

Lemma ltb_0_leb (r : float) : (0 <? r)%float = true -> (r <=? 0)%float = false.
Proof.
  rewrite FloatAxioms.ltb_spec, FloatAxioms.leb_spec.
  destruct (Prim2SF r) as [s|s| |s m e]; [destruct s..| |destruct s];
    vm_compute; congruence.
Qed.

(** [0.0 * r == 0.0] for every finite [r] (the product is [+0.0] or [-0.0]). *)
Lemma zero_mul_finite (r : float) : is_finite r = true -> (0 * r =? 0)%float = true.
Proof.
  unfold is_finite, is_nan, is_infinity.
  rewrite !FloatAxioms.eqb_spec, FloatAxioms.abs_spec, FloatAxioms.mul_spec.
  destruct (Prim2SF r) as [s|s| |s m e]; [destruct s..| |destruct s];
    vm_compute; congruence.
Qed.

(** ** Facts about the provider *)

Module ProviderFacts.
Import StaticRateProvider.

Lemma getRate_diff (s : t) (from to : string) :
  from <> to ->
  getRate s from to =
    match customRates s !! makeKey from to with
    | Some rate => Ok rate
    | None =>
        match baseRates s !! from, baseRates s !! to with
        | Some rateFrom, Some rateTo => Ok (rateTo / rateFrom)%float
        | _, _ => Throw UnsupportedCurrencyError
        end
    end.
Proof.
  intros Hne. unfold getRate.
  destruct (String.eqb_spec from to); [contradiction|reflexivity].
Qed.

Lemma setCustomRate_pos (s : t) (from to : string) (rate : float) :
  (0 <? rate)%float = true ->
  setCustomRate s from to rate =
    (Ok tt, mk (baseCurrencyCode s) (baseRates s)
               (<[makeKey from to := rate]> (customRates s))).
Proof. intros Hr. unfold setCustomRate. now rewrite (ltb_0_leb rate Hr). Qed.

(** An override set for [(from, to)] is what [getRate] returns for it. *)
Lemma getRate_after_setCustomRate (s : t) (from to : string) (rate : float) :
  from <> to -> (0 <? rate)%float = true ->
  getRate (setCustomRate s from to rate).2 from to = Ok rate.
Proof.
  intros Hne Hr. rewrite setCustomRate_pos by exact Hr. cbn [snd].
  rewrite getRate_diff by exact Hne. cbn [customRates].
  now rewrite lookup_insert_eq.
Qed.

(** Any other pair whose key differs is untouched by [setCustomRate]. *)
Lemma getRate_other_key (s : t) (from to c d : string) (rate : float) :
  makeKey c d <> makeKey from to ->
  getRate (setCustomRate s from to rate).2 c d = getRate s c d.
Proof.
  intros Hk. unfold setCustomRate.
  destruct (rate <=? 0)%float; [reflexivity|]. cbn [snd].
  unfold getRate; cbn [customRates baseRates].
  now rewrite lookup_insert_ne by congruence.
Qed.

End ProviderFacts.

(** ** Claims *)

Module Claims.
Import StaticRateProvider ProviderFacts.

(** C1: for every code [X] and every provider state (whatever its rate
    table and overrides, including an override stored under the key of
    [(X, X)]), [getRate(X, X)] returns exactly [1.0]. *)
Theorem getRate_identity (s : t) (X : string) :
  getRate s X X = Ok 1.0%float.
Proof. unfold getRate. now rewrite String.eqb_refl. Qed.

(** C2 (code_bug): the override keys [from + "->" + to] of
    [("->", "->->")] and [("->->", "->")] coincide, so setting the first
    changes [getRate("->->", "->")], which before the call threw. *)
Theorem setCustomRate_aliases_reverse_pair :
  let s0 := create "USD" in
  getRate s0 "->->" "->" = Throw UnsupportedCurrencyError /\
  getRate (setCustomRate s0 "->" "->->" 1.5%float).2 "->" "->->" = Ok 1.5%float /\
  getRate (setCustomRate s0 "->" "->->" 1.5%float).2 "->->" "->" = Ok 1.5%float.
Proof. vm_compute. repeat split. Qed.

(** C3: with [from <> to], no override under [makeKey from to] and both
    codes in the rate table, [getRate] returns
    [rateTable[to] / rateTable[from]]. *)
Theorem getRate_triangulates (s : t) (from to : string) (rateFrom rateTo : float) :
  from <> to ->
  customRates s !! makeKey from to = None ->
  baseRates s !! from = Some rateFrom ->
  baseRates s !! to = Some rateTo ->
  getRate s from to = Ok (rateTo / rateFrom)%float.
Proof.
  intros Hne Hc Hf Ht. rewrite getRate_diff by exact Hne.
  now rewrite Hc, Hf, Ht.
Qed.

Lemma getRate_triangulates_witness :
  getRate (create "USD") "EUR" "JPY" = Ok (141.50 / 0.92)%float.
Proof.
  apply (getRate_triangulates (create "USD") "EUR" "JPY" 0.92%float 141.50%float);
    vm_compute; [discriminate|reflexivity..].
Defined.

(** C4 (counterexample): the error thrown for an unknown code does not
    name it, and is the same whichever code is unknown. *)
Lemma getRate_unsupported_names_no_code :
  getRate (create "USD") "ZZZ" "USD" = Throw (runtime_error "Unsupported currency code") /\
  String.index 0 "ZZZ" "Unsupported currency code" = None /\
  getRate (create "USD") "USD" "ZZZ" = getRate (create "USD") "ZZZ" "USD".
Proof. vm_compute. repeat split. Qed.

(** C4 (amended): with [from <> to], no override under [makeKey from to]
    and at least one code missing from the rate table, [getRate] throws
    [runtime_error("Unsupported currency code")], a message that does not
    depend on which code is missing. *)
Theorem getRate_unsupported (s : t) (from to : string) :
  from <> to ->
  customRates s !! makeKey from to = None ->
  (baseRates s !! from = None \/ baseRates s !! to = None) ->
  getRate s from to = Throw UnsupportedCurrencyError.
Proof.
  intros Hne Hc Hmiss. rewrite getRate_diff by exact Hne. rewrite Hc.
  destruct Hmiss as [Hf|Ht]; [rewrite Hf|rewrite Ht]; [reflexivity|].
  now destruct (baseRates s !! from).
Qed.

Lemma getRate_unsupported_witness :
  getRate (create "USD") "ZZZ" "USD" = Throw UnsupportedCurrencyError.
Proof.
  apply getRate_unsupported; vm_compute; [discriminate|reflexivity|left; reflexivity].
Defined.

(** C5: [setCustomRate(A, B, r)] throws exactly when [r <= 0.0]; a throwing
    call leaves the whole provider (so every override) as it was; for
    [r > 0.0] it returns and inserts or overwrites the override under
    [makeKey A B]. *)
Theorem setCustomRate_validates (s : t) (A B : string) (rate : float) :
  (is_throw (setCustomRate s A B rate).1 = true <-> (rate <=? 0)%float = true) /\
  ((rate <=? 0)%float = true ->
     setCustomRate s A B rate = (Throw InvalidRateError, s)) /\
  ((0 <? rate)%float = true ->
     (setCustomRate s A B rate).1 = Ok tt /\
     customRates (setCustomRate s A B rate).2 = <[makeKey A B := rate]> (customRates s)).
Proof.
  split; [|split].
  - unfold setCustomRate. destruct (rate <=? 0)%float; cbn; split; congruence.
  - intros Hle. unfold setCustomRate. now rewrite Hle.
  - intros Hr. now rewrite setCustomRate_pos by exact Hr.
Qed.

(** C6: an override may be set for two codes absent from the rate table;
    [setCustomRate] returns, and [getRate] then returns the override
    instead of throwing. *)
Theorem override_for_unknown_codes (s : t) (A B : string) (rate : float) :
  A <> B ->
  baseRates s !! A = None ->
  baseRates s !! B = None ->
  (0 <? rate)%float = true ->
  (setCustomRate s A B rate).1 = Ok tt /\
  getRate (setCustomRate s A B rate).2 A B = Ok rate.
Proof.
  intros Hne _ _ Hr. split.
  - now rewrite setCustomRate_pos by exact Hr.
  - now apply getRate_after_setCustomRate.
Qed.

Lemma override_for_unknown_codes_witness :
  (setCustomRate (create "USD") "AAA" "BBB" 2.0%float).1 = Ok tt /\
  getRate (setCustomRate (create "USD") "AAA" "BBB" 2.0%float).2 "AAA" "BBB" = Ok 2.0%float.
Proof.
  apply override_for_unknown_codes; vm_compute; [discriminate|reflexivity..].
Defined.

(** Whether a call overwrites the rate-table entry of [b]. *)
Definition overwrites_base (b : string) (c : call) : bool :=
  match c with
  | RegisterCurrency code _ => String.eqb code b
  | _ => false
  end.

Lemma exec_baseCurrencyCode (s : t) (c : call) :
  baseCurrencyCode (exec s c) = baseCurrencyCode s.
Proof.
  destruct c as [code r|from to r|from to|]; cbn; try reflexivity.
  unfold setCustomRate. now destruct (r <=? 0)%float.
Qed.

Lemma exec_base_entry (s : t) (b : string) (c : call) :
  overwrites_base b c = false ->
  baseRates (exec s c) !! b = baseRates s !! b.
Proof.
  destruct c as [code r|from to r|from to|]; cbn; intros Hc; try reflexivity.
  - apply lookup_insert_ne. intros ->. now rewrite String.eqb_refl in Hc.
  - unfold setCustomRate. now destruct (r <=? 0)%float.
Qed.

Lemma foldl_exec_base (s : t) (b : string) (calls : list call) :
  Forall (fun c => overwrites_base b c = false) calls ->
  baseCurrencyCode (foldl exec s calls) = baseCurrencyCode s /\
  baseRates (foldl exec s calls) !! b = baseRates s !! b.
Proof.
  revert s. induction calls as [|c calls IH]; intros s Hall; [done|].
  inversion Hall as [|? ? Hc Hrest]; subst. cbn.
  destruct (IH (exec s c) Hrest) as [IH1 IH2]. rewrite IH1, IH2.
  split; [apply exec_baseCurrencyCode | now apply exec_base_entry].
Qed.

Lemma create_base (b : string) :
  b ∉ seedRates.*1 ->
  baseCurrencyCode (create b) = b /\ baseRates (create b) !! b = Some 1.0%float.
Proof.
  intros Hb. split; [reflexivity|].
  cbn in Hb. rewrite !not_elem_of_cons in Hb.
  destruct Hb as (H1 & H2 & H3 & H4 & H5 & H6 & _).
  unfold create; cbn [baseRates foldl seedRates fst snd].
  rewrite !lookup_insert_ne by congruence.
  apply lookup_insert_eq.
Qed.

(** C8 (counterexample): [registerCurrency] overwrites the base's entry
    like any other. *)
Lemma base_rate_overwritten :
  baseRates (run "USD" [RegisterCurrency "USD" 2.0%float]) !! "USD" = Some 2.0%float.
Proof. vm_compute. reflexivity. Qed.

(** C8 (amended): for a base code outside the six seed codes (as the
    application's ["USD"]), the rate table maps the base to exactly [1.0]
    after any sequence of [registerCurrency], [setCustomRate], [getRate]
    and [getSupportedCodes] calls none of which registers the base code
    itself. *)
Theorem base_rate_pinned (b : string) (calls : list call) :
  b ∉ seedRates.*1 ->
  Forall (fun c => overwrites_base b c = false) calls ->
  baseCurrencyCode (run b calls) = b /\
  baseRates (run b calls) !! b = Some 1.0%float.
Proof.
  intros Hb Hcalls. unfold run.
  destruct (foldl_exec_base (create b) b calls Hcalls) as [-> ->].
  now apply create_base.
Qed.

Lemma base_rate_pinned_witness :
  baseCurrencyCode (run "USD" [SetCustomRate "USD" "EUR" 0.95%float;
                               RegisterCurrency "XYZ" 5.0%float; GetRate "USD" "EUR";
                               GetSupportedCodes]) = "USD" /\
  baseRates (run "USD" [SetCustomRate "USD" "EUR" 0.95%float;
                        RegisterCurrency "XYZ" 5.0%float; GetRate "USD" "EUR";
                        GetSupportedCodes]) !! "USD" = Some 1.0%float.
Proof.
  apply base_rate_pinned.
  - apply (bool_decide_unpack _). vm_compute. exact I.
  - repeat constructor.
Defined.

(** C9: override keys alias across pairs: setting the override of
    [("A->B", "C")] makes [getRate("A", "B->C")] return it. *)
Theorem makeKey_aliases (s : t) (rate : float) :
  (0 <? rate)%float = true ->
  ("A->B", "C")%string <> ("A", "B->C")%string /\
  getRate (setCustomRate s "A->B" "C" rate).2 "A" "B->C" = Ok rate.
Proof.
  intros Hr. split; [discriminate|].
  rewrite setCustomRate_pos by exact Hr. cbn [snd].
  rewrite getRate_diff by discriminate. cbn [customRates].
  change (makeKey "A" "B->C") with (makeKey "A->B" "C").
  now rewrite lookup_insert_eq.
Qed.

Lemma makeKey_aliases_witness :
  ("A->B", "C")%string <> ("A", "B->C")%string /\
  getRate (setCustomRate (create "USD") "A->B" "C" 3.0%float).2 "A" "B->C" = Ok 3.0%float.
Proof. apply makeKey_aliases. vm_compute. reflexivity. Defined.

End Claims.

Module ConverterClaims.

(** C7 (counterexample): two positive registered rates whose quotient
    overflows make [getRate] return [+infinity], and [convert] of [0.0]
    then returns NaN, not [0.0]. *)
Lemma convert_zero_overflow :
  let s := StaticRateProvider.registerCurrency
             (StaticRateProvider.registerCurrency (StaticRateProvider.create "USD")
                "TINY" 1e-300%float) "HUGE" 1e300%float in
  getRate s "TINY" "HUGE" = Ok infinity /\
  convert s "TINY" "HUGE" 0%float = Ok nan /\
  (nan =? 0)%float = false.
Proof. vm_compute. repeat split. Qed.

(** C7 (amended): [convert] throws [NegativeAmountError] when
    [amount < 0.0]; otherwise it returns [amount * rate] for the rate
    [getRate] returns and rethrows its exception unchanged; and
    [convert(A, B, 0.0)] returns a value equal ([==]) to [0.0] whenever
    [getRate(A, B)] returns a finite rate. *)
Theorem convert_spec {P : Type} `{ExchangeRateProvider P} (p : P)
    (from to : string) (amount : float) :
  ((amount <? 0)%float = true -> convert p from to amount = Throw NegativeAmountError) /\
  ((amount <? 0)%float = false ->
     convert p from to amount =
       match getRate p from to with
       | Ok rate => Ok (amount * rate)%float
       | Throw e => Throw e
       end) /\
  (forall rate, getRate p from to = Ok rate -> is_finite rate = true ->
     exists z, convert p from to 0%float = Ok z /\ (z =? 0)%float = true).
Proof.
  split; [|split].
  - intros Hneg. unfold convert. now rewrite Hneg.
  - intros Hnn. unfold convert. now rewrite Hnn.
  - intros rate Hget Hfin. exists (0 * rate)%float. split.
    + unfold convert. rewrite Hget. reflexivity.
    + now apply zero_mul_finite.
Qed.

(** C10: for a negative amount, [convert] throws [NegativeAmountError]
    for every provider of every implementation, so the outcome never
    depends on [getRate], not even when it would throw. *)
Theorem convert_checks_amount_first {P : Type} `{ExchangeRateProvider P} (p : P)
    (from to : string) (amount : float) :
  (amount <? 0)%float = true ->
  convert p from to amount = Throw NegativeAmountError.
Proof. intros Hneg. unfold convert. now rewrite Hneg. Qed.

Lemma convert_checks_amount_first_witness :
  getRate (StaticRateProvider.create "USD") "ZZZ" "QQQ" = Throw UnsupportedCurrencyError /\
  convert (StaticRateProvider.create "USD") "ZZZ" "QQQ" (-1)%float = Throw NegativeAmountError.
Proof.
  split; [vm_compute; reflexivity|].
  apply convert_checks_amount_first. vm_compute. reflexivity.
Defined.

End ConverterClaims.

(** ** Further properties of [StaticRateProvider] *)

Module ProviderExtras.
Import StaticRateProvider ProviderFacts.

(** [getSupportedCodes] lists each code of the rate table exactly once and
    nothing else. *)
Theorem getSupportedCodes_spec (s : t) (c : string) :
  (c ∈ getSupportedCodes s <-> is_Some (baseRates s !! c)) /\
  NoDup (getSupportedCodes s).
Proof.
  split; [|apply NoDup_fst_map_to_list].
  unfold getSupportedCodes. rewrite list_elem_of_fmap. split.
  - intros ([k v] & -> & Hin). apply elem_of_map_to_list in Hin. now exists v.
  - intros [v Hv]. exists (c, v). split; [reflexivity|].
    now apply elem_of_map_to_list.
Qed.

(** [registerCurrency(code, r)] adds exactly [code] to the supported codes
    and leaves every override as it was. *)
Theorem registerCurrency_supported (s : t) (code c : string) (r : float) :
  (c ∈ getSupportedCodes (registerCurrency s code r) <->
     c = code \/ c ∈ getSupportedCodes s) /\
  customRates (registerCurrency s code r) = customRates s.
Proof.
  split; [|reflexivity].
  rewrite !(proj1 (getSupportedCodes_spec _ c)). cbn [baseRates registerCurrency].
  destruct (String.eq_dec c code) as [->|Hne].
  - rewrite lookup_insert_eq. split; [now left|intros _; eauto].
  - rewrite lookup_insert_ne by congruence. split; [now right|].
    intros [?|?]; [contradiction|assumption].
Qed.

Lemma exec_keeps_code (s : t) (cl : call) (c : string) :
  is_Some (baseRates s !! c) -> is_Some (baseRates (exec s cl) !! c).
Proof.
  intros Hc. destruct cl as [code r|from to r|from to|]; cbn; try exact Hc.
  - destruct (String.eq_dec c code) as [->|Hne].
    + rewrite lookup_insert_eq. eauto.
    + now rewrite lookup_insert_ne by congruence.
  - unfold setCustomRate. now destruct (r <=? 0)%float.
Qed.

(** No sequence of calls removes a supported code. *)
Theorem supported_codes_never_removed (s : t) (calls : list call) (c : string) :
  c ∈ getSupportedCodes s -> c ∈ getSupportedCodes (foldl exec s calls).
Proof.
  rewrite !(proj1 (getSupportedCodes_spec _ c)).
  revert s. induction calls as [|cl calls IH]; intros s Hc; [exact Hc|].
  cbn. apply IH. now apply exec_keeps_code.
Qed.

Lemma supported_codes_never_removed_witness :
  "EUR" ∈ getSupportedCodes (foldl exec (create "USD")
                               [RegisterCurrency "EUR" 0.5%float; GetSupportedCodes]).
Proof.
  apply supported_codes_never_removed.
  apply (proj1 (getSupportedCodes_spec _ _)). vm_compute. eexists. reflexivity.
Defined.

(** Whether a call stores a new override under the key [k]. *)
Definition rewrites_key (k : string) (cl : call) : bool :=
  match cl with
  | SetCustomRate from to r => String.eqb (makeKey from to) k && negb (r <=? 0)%float
  | _ => false
  end.

Lemma exec_keeps_override (s : t) (cl : call) (k : string) :
  rewrites_key k cl = false ->
  customRates (exec s cl) !! k = customRates s !! k.
Proof.
  destruct cl as [code r|from to r|from to|]; cbn; intros Hk; try reflexivity.
  unfold setCustomRate. destruct (r <=? 0)%float eqn:Hr; [reflexivity|].
  cbn. rewrite andb_true_r in Hk.
  apply lookup_insert_ne. intros Heq. rewrite Heq, String.eqb_refl in Hk. discriminate.
Qed.

(** An override stays in force across any later calls (rate
    registrations included) that store no new override under its key. *)
Theorem override_persists (s : t) (A B : string) (r : float) (calls : list call) :
  A <> B ->
  (0 <? r)%float = true ->
  Forall (fun cl => rewrites_key (makeKey A B) cl = false) calls ->
  getRate (foldl exec (setCustomRate s A B r).2 calls) A B = Ok r.
Proof.
  intros Hne Hr Hcalls.
  assert (Hk : forall s', customRates s' !! makeKey A B = Some r ->
            customRates (foldl exec s' calls) !! makeKey A B = Some r).
  { induction Hcalls as [|cl calls Hcl _ IH]; intros s' Hs'; [exact Hs'|].
    cbn. apply IH. now rewrite exec_keeps_override. }
  rewrite getRate_diff by exact Hne. rewrite Hk; [reflexivity|].
  rewrite setCustomRate_pos by exact Hr. cbn. apply lookup_insert_eq.
Qed.

Lemma override_persists_witness :
  getRate (foldl exec (setCustomRate (create "USD") "USD" "EUR" 0.95%float).2
             [RegisterCurrency "EUR" 0.5%float; SetCustomRate "USD" "EUR" 0%float;
              SetCustomRate "EUR" "USD" 2.0%float]) "USD" "EUR" = Ok 0.95%float.
Proof.
  apply override_persists; [discriminate|vm_compute; reflexivity|].
  repeat constructor.
Defined.

(** A successful [setCustomRate] for a pair replaces whatever an earlier
    call stored for it: the earlier call leaves no trace. *)
Theorem setCustomRate_last_wins (s : t) (A B : string) (r1 r2 : float) :
  (0 <? r2)%float = true ->
  (setCustomRate (setCustomRate s A B r1).2 A B r2).2 = (setCustomRate s A B r2).2.
Proof.
  intros Hr2. rewrite !(setCustomRate_pos _ _ _ r2 Hr2). cbn.
  unfold setCustomRate. destruct (r1 <=? 0)%float; cbn; [reflexivity|].
  now rewrite insert_insert_eq.
Qed.

Lemma setCustomRate_last_wins_witness :
  (setCustomRate (setCustomRate (create "USD") "USD" "EUR" 0.9%float).2
                 "USD" "EUR" 0.95%float).2
  = (setCustomRate (create "USD") "USD" "EUR" 0.95%float).2.
Proof. apply setCustomRate_last_wins. vm_compute. reflexivity. Defined.

(** Registering a rate and setting an override touch different tables, so
    they can be made in either order. *)
Theorem register_setCustomRate_commute (s : t) (code from to : string) (x r : float) :
  exec (exec s (RegisterCurrency code x)) (SetCustomRate from to r) =
  exec (exec s (SetCustomRate from to r)) (RegisterCurrency code x).
Proof. cbn. unfold setCustomRate. now destruct (r <=? 0)%float. Qed.

(** [getRate] throws exactly when the codes differ, no override is stored
    under their key and one of them has no rate; the only exception it
    throws is [UnsupportedCurrencyError]. *)
Theorem getRate_throws_iff (s : t) (from to : string) :
  (is_throw (getRate s from to) = true <->
     from <> to /\ customRates s !! makeKey from to = None /\
     (baseRates s !! from = None \/ baseRates s !! to = None)) /\
  (forall e, getRate s from to = Throw e -> e = UnsupportedCurrencyError).
Proof.
  unfold getRate. destruct (String.eqb_spec from to) as [->|Hne].
  - split; [split; [discriminate|intros (? & _); contradiction]|discriminate].
  - destruct (customRates s !! makeKey from to) eqn:Hc.
    + split; [split; [discriminate|intros (_ & ? & _); congruence]|discriminate].
    + destruct (baseRates s !! from) eqn:Hf, (baseRates s !! to) eqn:Ht; cbn;
        (split; [split|]);
        first [ discriminate
              | intros (_ & _ & [?|?]); congruence
              | intros _; eauto
              | intros e He; congruence ].
Qed.

(** Converting a code to itself never throws for a non-negative amount,
    whether or not the code has a rate. *)
Theorem convert_same_code (s : t) (X : string) (amount : float) :
  (amount <? 0)%float = false ->
  convert s X X amount = Ok (amount * 1.0)%float.
Proof.
  intros Hnn. unfold convert. rewrite Hnn. cbn.
  unfold getRate. now rewrite String.eqb_refl.
Qed.

Lemma convert_same_code_witness :
  convert (create "USD") "ZZZ" "ZZZ" 5.0%float = Ok (5.0 * 1.0)%float.
Proof. apply convert_same_code. vm_compute. reflexivity. Defined.

End ProviderExtras.

(** ** The presentation layer: [Currency] and [ConverterApp] *)

(** [class Currency]: a descriptive record with its three getters. *)
Module Currency.
Record t := mk { code : string; name : string; symbol : string }.
Definition getCode (c : t) : string := code c.
Definition getName (c : t) : string := name c.
Definition getSymbol (c : t) : string := symbol c.
End Currency.

Module ConverterApp.

(** [toupper] in the "C" locale (the program never calls [setlocale]):
    ['a'..'z'] become ['A'..'Z'], every other byte is kept. *)
Definition is_lower (c : Ascii.ascii) : bool :=
  (97 <=? Ascii.nat_of_ascii c)%nat && (Ascii.nat_of_ascii c <=? 122)%nat.

Definition toupper (c : Ascii.ascii) : Ascii.ascii :=
  if is_lower c then Ascii.ascii_of_nat (Ascii.nat_of_ascii c - 32) else c.

(** The loop [for (char &c : code) c = toupper(c);] of [readCode]. *)
Fixpoint uppercase (code : string) : string :=
  match code with
  | EmptyString => EmptyString
  | String c rest => String (toupper c) (uppercase rest)
  end.

(** [readCode]: the word [std::cin >> code] reads is [token]; the code
    returned is that word in upper case. *)
Definition readCode (token : string) : string := uppercase token.

(** The two data members the core does not own: the provider (shared by
    reference with the converter) and the display catalog. *)
Record t := mk {
  rateProvider : StaticRateProvider.t;
  currencies : gmap string Currency.t
}.

(** [void registerCurrency(const Currency &currency)] of the app. *)
Definition registerCurrency (app : t) (currency : Currency.t) : t :=
  mk (rateProvider app) (<[Currency.getCode currency := currency]> (currencies app)).

Definition seedList : list Currency.t :=
  [Currency.mk "USD" "US Dollar" "$"; Currency.mk "EUR" "Euro" "€";
   Currency.mk "INR" "Indian Rupee" "₹"; Currency.mk "GBP" "British Pound" "£";
   Currency.mk "JPY" "Japanese Yen" "¥"; Currency.mk "AUD" "Australian Dollar" "$";
   Currency.mk "CAD" "Canadian Dollar" "$"].

(** [void seedCurrencies()]. *)
Definition seedCurrencies (app : t) : t := foldl registerCurrency app seedList.

(** [ConverterApp() : rateProvider("USD"), converter(rateProvider)]. *)
Definition create : t := seedCurrencies (mk (StaticRateProvider.create "USD") ∅).

(** What one menu action prints, as data (the numbers are printed with
    [std::fixed] and [std::setprecision(2)]; the model keeps the values). *)
Inductive output :=
| Converted (amount : float) (fromLabel : string) (result : float) (toLabel : string)
| Listed (entries : list Currency.t)
| RateUpdated
| AboutShown
| UnknownChoice
| ErrorShown (what : string).

(** The code [handleConvert] prints for a code:
    [itFrom != currencies.end() ? itFrom->second.getCode() : from]. *)
Definition label (app : t) (code : string) : string :=
  match currencies app !! code with
  | Some c => Currency.getCode c
  | None => code
  end.

(** [void handleConvert()], after its three reads. *)
Definition handleConvert (app : t) (fromToken toToken : string) (amount : float)
  : result output :=
  let from := readCode fromToken in
  let to := readCode toToken in
  match convert (rateProvider app) from to amount with
  | Ok result => Ok (Converted amount (label app from) result (label app to))
  | Throw e => Throw e
  end.

(** [void handleListCurrencies()]: every catalog entry (a [std::map]
    lists them by code; the model lists them in the map's own order). *)
Definition handleListCurrencies (app : t) : output :=
  Listed (map_to_list (currencies app)).*2.

(** [void handleCustomRate()], after its three reads: the provider is
    changed in place. *)
Definition handleCustomRate (app : t) (fromToken toToken : string) (rate : float)
  : result output * t :=
  let '(res, p) := StaticRateProvider.setCustomRate (rateProvider app)
                     (readCode fromToken) (readCode toToken) rate in
  (match res with Ok _ => Ok RateUpdated | Throw e => Throw e end,
   mk p (currencies app)).

(** One pass of the menu loop: the [int] [readInt] returns and the words
    and number the chosen handler reads (ignored by the other choices). *)
Record request := mkRequest {
  choice : Z;
  fromToken : string;
  toToken : string;
  number : float
}.

(** The [switch (choice)] of [run]; [None] is [case 0] ([running = false]). *)
Definition dispatch (app : t) (req : request) : option (result output * t) :=
  match choice req with
  | 1%Z => Some (handleConvert app (fromToken req) (toToken req) (number req), app)
  | 2%Z => Some (Ok (handleListCurrencies app), app)
  | 3%Z => Some (handleCustomRate app (fromToken req) (toToken req) (number req))
  | 4%Z => Some (Ok AboutShown, app)
  | 0%Z => None
  | _ => Some (Ok UnknownChoice, app)
  end.

(** [catch (const std::exception &ex) { std::cout << "Error: " << ex.what(); }] *)
Definition catching (r : result output) : output :=
  match r with
  | Ok o => o
  | Throw (runtime_error what) => ErrorShown what
  end.

(** [void run()] over the requests the user enters: the app after them,
    what each pass printed, and whether the loop ended (choice [0]). *)
Fixpoint run (app : t) (reqs : list request) : t * list output * bool :=
  match reqs with
  | [] => (app, [], false)
  | req :: rest =>
      match dispatch app req with
      | None => (app, [], true)
      | Some (r, app') =>
          let '(app'', outs, finished) := run app' rest in
          (app'', catching r :: outs, finished)
      end
  end.

End ConverterApp.

Module AppExtras.
Import ConverterApp.

Example run_convert_lowercase :
  (run create [mkRequest 1 "usd" "eur" 100%float]).1.2
  = [Converted 100%float "USD" (100 * 0.92)%float "EUR"].
Proof. vm_compute. reflexivity. Qed.

Lemma toupper_idem (c : Ascii.ascii) : toupper (toupper c) = toupper c.
Proof. destruct c as [[] [] [] [] [] [] [] []]; reflexivity. Qed.

Lemma is_lower_toupper (c : Ascii.ascii) : is_lower (toupper c) = false.
Proof. destruct c as [[] [] [] [] [] [] [] []]; reflexivity. Qed.

(** [readCode]'s upper-casing keeps the length, leaves no lower-case letter
    and is idempotent: a code already read comes back unchanged. *)
Theorem uppercase_normalizes (s : string) :
  uppercase (uppercase s) = uppercase s /\
  String.length (uppercase s) = String.length s /\
  (forall i c, String.get i (uppercase s) = Some c -> is_lower c = false).
Proof.
  induction s as [|c s (IH1 & IH2 & IH3)]; cbn.
  - split; [reflexivity|split; [reflexivity|intros i c H; now destruct i]].
  - rewrite toupper_idem, IH1, IH2. split; [reflexivity|split; [reflexivity|]].
    intros [|i] c' H; cbn in H.
    + injection H as <-. apply is_lower_toupper.
    + now apply (IH3 i).
Qed.

(** Every catalog entry is stored under its own code. *)
Definition catalog_keyed (app : t) : Prop :=
  map_Forall (fun k c => Currency.getCode c = k) (currencies app).

Lemma registerCurrency_keyed (app : t) (c : Currency.t) :
  catalog_keyed app -> catalog_keyed (registerCurrency app c).
Proof. intros H. unfold catalog_keyed. cbn. now apply map_Forall_insert_2. Qed.

Lemma foldl_registerCurrency_keyed (l : list Currency.t) (app : t) :
  catalog_keyed app -> catalog_keyed (foldl registerCurrency app l).
Proof.
  revert app. induction l as [|c l IH]; intros app H; [exact H|]. cbn.
  apply IH. now apply registerCurrency_keyed.
Qed.

Lemma create_keyed : catalog_keyed create.
Proof.
  apply foldl_registerCurrency_keyed. unfold catalog_keyed. cbn.
  apply map_Forall_empty.
Qed.

Lemma label_keyed (app : t) (code : string) :
  catalog_keyed app -> label app code = code.
Proof.
  intros H. unfold label. destruct (currencies app !! code) as [c|] eqn:Hc; [|reflexivity].
  exact (H code c Hc).
Qed.

Lemma dispatch_keeps (app app' : t) (req : request) (r : result output) :
  dispatch app req = Some (r, app') ->
  currencies app' = currencies app /\
  StaticRateProvider.baseRates (rateProvider app') = StaticRateProvider.baseRates (rateProvider app) /\
  StaticRateProvider.baseCurrencyCode (rateProvider app') =
    StaticRateProvider.baseCurrencyCode (rateProvider app).
Proof.
  unfold dispatch. intros H.
  repeat case_match; simplify_eq; try (repeat split; reflexivity).
  unfold handleCustomRate in *. unfold StaticRateProvider.setCustomRate in *.
  all: destruct (number req <=? 0)%float; simplify_eq; repeat split.
Qed.

Lemma run_keeps (app : t) (reqs : list request) :
  currencies (run app reqs).1.1 = currencies app /\
  StaticRateProvider.baseRates (rateProvider (run app reqs).1.1) =
    StaticRateProvider.baseRates (rateProvider app).
Proof.
  revert app. induction reqs as [|req reqs IH]; intros app; [done|]. cbn.
  destruct (dispatch app req) as [[r app']|] eqn:Hd; [|done].
  destruct (run app' reqs) as [[app'' outs] fin] eqn:Hr. cbn.
  destruct (dispatch_keeps _ _ _ _ Hd) as (H1 & H2 & _).
  destruct (IH app') as [IH1 IH2]. rewrite Hr in IH1, IH2. cbn in IH1, IH2.
  split; congruence.
Qed.

(** Through the menu the rate table and the display catalog never change:
    only overrides can be added, so ["USD"] keeps the rate [1.0] and
    option 2 always lists the seven seeded currencies. *)
Theorem menu_keeps_tables (reqs : list request) :
  currencies (run create reqs).1.1 = currencies create /\
  StaticRateProvider.baseRates (rateProvider (run create reqs).1.1) =
    StaticRateProvider.baseRates (rateProvider create) /\
  StaticRateProvider.baseRates (rateProvider (run create reqs).1.1) !! "USD" = Some 1.0%float /\
  handleListCurrencies (run create reqs).1.1 = handleListCurrencies create.
Proof.
  destruct (run_keeps create reqs) as [H1 H2].
  split; [exact H1|split; [exact H2|split]].
  - rewrite H2. vm_compute. reflexivity.
  - unfold handleListCurrencies. now rewrite H1.
Qed.

Lemma run_keyed (app : t) (reqs : list request) :
  catalog_keyed app -> catalog_keyed (run app reqs).1.1.
Proof.
  unfold catalog_keyed. now rewrite (proj1 (run_keeps app reqs)).
Qed.

(** After any menu session, a successful conversion prints the two codes
    exactly as [readCode] normalised them: the catalog lookup never
    substitutes another code. *)
Theorem handleConvert_prints_codes (reqs : list request) (fromTok toTok : string)
    (amount : float) (out : output) :
  handleConvert (run create reqs).1.1 fromTok toTok amount = Ok out ->
  exists result, out = Converted amount (readCode fromTok) result (readCode toTok).
Proof.
  intros H. pose proof (run_keyed create reqs create_keyed) as Hk.
  unfold handleConvert in H.
  destruct (convert _ _ _ _) as [result|e]; [|discriminate].
  injection H as <-. exists result. now rewrite !label_keyed by exact Hk.
Qed.

Lemma handleConvert_prints_codes_witness :
  exists result, Converted 100%float "USD" (100 * 0.92)%float "EUR"
                 = Converted 100%float (readCode "usd") result (readCode "Eur").
Proof.
  apply (handleConvert_prints_codes [] "usd" "Eur" 100%float).
  vm_compute. reflexivity.
Defined.

Lemma dispatch_None (app : t) (req : request) :
  dispatch app req = None <-> choice req = 0%Z.
Proof.
  unfold dispatch. split; [|intros ->; reflexivity].
  repeat case_match; congruence.
Qed.

(** The menu loop ends exactly at the first choice [0]: a session without
    it never ends and prints one message per pass, errors included; what
    follows the first [0] is never processed. *)
Theorem run_stops_at_exit (app : t) (reqs1 reqs2 : list request) (req0 : request) :
  Forall (fun req => choice req <> 0%Z) reqs1 ->
  (run app reqs1).2 = false /\
  length (run app reqs1).1.2 = length reqs1 /\
  (choice req0 = 0%Z ->
     run app (reqs1 ++ req0 :: reqs2) = run app (reqs1 ++ [req0]) /\
     (run app (reqs1 ++ [req0])).2 = true).
Proof.
  intros Hall. revert app. induction Hall as [|req reqs Hreq _ IH]; intros app.
  - cbn. split; [reflexivity|split; [reflexivity|]].
    intros H0. rewrite (proj2 (dispatch_None app req0) H0). done.
  - cbn. destruct (dispatch app req) as [[r app']|] eqn:Hd;
      [|apply dispatch_None in Hd; contradiction].
    destruct (IH app') as (IH1 & IH2 & IH3).
    destruct (run app' reqs) as [[app'' outs] fin] eqn:Hr. cbn in IH1, IH2 |- *.
    split; [exact IH1|split; [now f_equal|]].
    intros H0. destruct (IH3 H0) as [IH4 IH5]. rewrite IH4.
    destruct (run app' (reqs ++ [req0])) as [[? ?] ?]. cbn in IH5 |- *. done.
Qed.

Lemma run_stops_at_exit_witness :
  (run create [mkRequest 1 "usd" "zzz" 1%float; mkRequest 3 "usd" "eur" (-2)%float]).2
    = false /\
  length (run create [mkRequest 1 "usd" "zzz" 1%float;
                      mkRequest 3 "usd" "eur" (-2)%float]).1.2 = 2%nat /\
  (choice (mkRequest 0 "" "" 0%float) = 0%Z ->
     run create ([mkRequest 1 "usd" "zzz" 1%float; mkRequest 3 "usd" "eur" (-2)%float]
                 ++ mkRequest 0 "" "" 0%float :: [mkRequest 3 "usd" "eur" 5%float]) =
     run create ([mkRequest 1 "usd" "zzz" 1%float; mkRequest 3 "usd" "eur" (-2)%float]
                 ++ [mkRequest 0 "" "" 0%float]) /\
     (run create ([mkRequest 1 "usd" "zzz" 1%float; mkRequest 3 "usd" "eur" (-2)%float]
                  ++ [mkRequest 0 "" "" 0%float])).2 = true).
Proof.
  apply run_stops_at_exit. repeat constructor; cbn; discriminate.
Defined.

(** A rejected rate or a negative amount is reported as
    ["Rate must be positive"] or ["Amount cannot be negative"], leaves the
    app as it was, and the loop goes on. *)
Theorem menu_errors_are_caught (app : t) (fromTok toTok : string) (x : float) :
  ((x <=? 0)%float = true ->
     run app [mkRequest 3 fromTok toTok x] = (app, [ErrorShown "Rate must be positive"], false)) /\
  ((x <? 0)%float = true ->
     run app [mkRequest 1 fromTok toTok x] = (app, [ErrorShown "Amount cannot be negative"], false)).
Proof.
  split; intros Hx; cbn.
  - unfold handleCustomRate, StaticRateProvider.setCustomRate. rewrite Hx. cbn.
    now destruct app.
  - unfold handleConvert, convert. now rewrite Hx.
Qed.



End AppExtras.
